(* ===================================================================== *)
(* CH552G mini keyboard: WS2812 driver (ws2812.c / ws2812.h) and the      *)
(* colour palette (led_colors.h), embedded shallowly and verified.       *)
(* ===================================================================== *)

From Stdlib Require Import ZArith Lia Bool.
From stdpp Require Import base list option.

Local Open Scope Z_scope.

(* --------------------------------------------------------------------- *)
(* Machine integers of the target (8051 core, SDCC): uint8_t is 8 bits,  *)
(* int is 16 bits.                                                       *)
(* --------------------------------------------------------------------- *)

(** Range of a [uint8_t]. *)
Definition is_u8 (x : Z) : Prop := 0 <= x < 256.

(** Conversion to [uint8_t]: reduction modulo 2^8. *)
Definition to_u8 (x : Z) : Z := x mod 256.

(** Conversion to the 16-bit signed [int] of the target, wrap-around
    written out. *)
Definition to_int (x : Z) : Z := (x + 32768) mod 65536 - 32768.

(** [a * b] on [int]. *)
Definition int_mul (a b : Z) : Z := to_int (a * b).

(** [a / b] on [int]: C division truncates toward zero. *)
Definition int_div (a b : Z) : Z := to_int (Z.quot a b).

(* ===================================================================== *)
(* led_colors.h                                                          *)
(* ===================================================================== *)

Module LedColors.

(** [typedef struct { uint8_t r, g, b; } RGB_Color]. *)
Record RGB_Color := mkRGB { r : Z; g : Z; b : Z }.

(** [static const RGB_Color COLOR_PALETTE[8]]. *)
Definition COLOR_PALETTE : list RGB_Color :=
  [ mkRGB 0   0   0      (* 0: COLOR_OFF *)
  ; mkRGB 100 0   0      (* 1: COLOR_RED *)
  ; mkRGB 0   100 0      (* 2: COLOR_GREEN *)
  ; mkRGB 0   0   100    (* 3: COLOR_BLUE *)
  ; mkRGB 100 80  0      (* 4: COLOR_YELLOW *)
  ; mkRGB 0   100 100    (* 5: COLOR_CYAN *)
  ; mkRGB 100 0   100    (* 6: COLOR_MAGENTA *)
  ; mkRGB 100 100 100    (* 7: COLOR_WHITE *)
  ].

Definition DEFAULT_LED_BRIGHTNESS : Z := 10.

(** The bytes the [uint8_t *] arguments point to: a store from addresses
    to byte values.  Two pointer arguments may hold the same address. *)
Definition mem : Type := Z -> Z.

(** [*p]. *)
Definition load (m : mem) (p : Z) : Z := m p.

(** [*p = v] for a [uint8_t *p]: the assigned value is converted to
    [uint8_t]. *)
Definition store (p : Z) (v : Z) (m : mem) : mem :=
  fun q => if q =? p then to_u8 v else m q.

(** [applyBrightness(r, g, b, brightness)]: the three statements in source
    order, each reading through its pointer, multiplying and dividing on
    [int], and writing back through the same pointer. *)
Definition applyBrightness (p_r p_g p_b : Z) (brightness : Z) (m : mem) : mem :=
  let m := store p_r (int_div (int_mul (load m p_r) brightness) 255) m in
  let m := store p_g (int_div (int_mul (load m p_g) brightness) 255) m in
  let m := store p_b (int_div (int_mul (load m p_b) brightness) 255) m in
  m.

(** [getColor(color_index, brightness, r, g, b)].  The palette read is
    [None] outside the table (undefined behaviour in C). *)
Definition getColor (color_index brightness : Z) (p_r p_g p_b : Z) (m : mem)
  : option mem :=
  let color_index := if 7 <? color_index then 0 else color_index in
  c ← COLOR_PALETTE !! Z.to_nat color_index;
  let m := store p_r (r c) m in
  let m := store p_g (g c) m in
  let m := store p_b (b c) m in
  Some (applyBrightness p_r p_g p_b brightness m).

End LedColors.

(* ===================================================================== *)
(* ws2812.h / ws2812.c                                                   *)
(* ===================================================================== *)

Module WS2812.

(** [#define WS2812_COUNT 3] and [#define WS2812_PIN 34]. *)
Definition WS2812_COUNT : Z := 3.
Definition WS2812_PIN : Z := 34.

(** Pin modes and levels of the Arduino core, as far as the driver uses
    them. *)
Inductive pin_mode := OUTPUT.
Definition LOW : bool := false.

(** What the driver does to the outside world, in program order. *)
Inductive event :=
| EvPinMode (pin : Z) (mode : pin_mode)      (* pinMode(pin, mode) *)
| EvDigitalWrite (pin : Z) (level : bool)    (* digitalWrite(pin, level) *)
| EvPin (level : bool)                       (* a write to WS2812_PIN_BIT *)
| EvIrq (enabled : bool)                     (* noInterrupts() / interrupts() *)
| EvDelay (us : Z).                          (* delayMicroseconds(us) *)

(** The state the driver runs on: the global [WS2812_buffer], the static
    [buffer_ptr] (as an offset into the buffer), the 8051 registers the
    assembly of [WS2812_sendByte] touches, the global interrupt enable
    flag, and the events emitted so far. *)
Record state := mkState {
  WS2812_buffer : list Z;
  buffer_ptr : Z;
  ACC : Z;
  CY : bool;
  R7 : Z;
  DPL : Z;
  EA : bool;
  out : list event
}.

Definition set_buffer (v : list Z) (s : state) : state :=
  mkState v (buffer_ptr s) (ACC s) (CY s) (R7 s) (DPL s) (EA s) (out s).
Definition set_buffer_ptr (v : Z) (s : state) : state :=
  mkState (WS2812_buffer s) v (ACC s) (CY s) (R7 s) (DPL s) (EA s) (out s).
Definition set_ACC (v : Z) (s : state) : state :=
  mkState (WS2812_buffer s) (buffer_ptr s) v (CY s) (R7 s) (DPL s) (EA s) (out s).
Definition set_CY (v : bool) (s : state) : state :=
  mkState (WS2812_buffer s) (buffer_ptr s) (ACC s) v (R7 s) (DPL s) (EA s) (out s).
Definition set_R7 (v : Z) (s : state) : state :=
  mkState (WS2812_buffer s) (buffer_ptr s) (ACC s) (CY s) v (DPL s) (EA s) (out s).
Definition set_DPL (v : Z) (s : state) : state :=
  mkState (WS2812_buffer s) (buffer_ptr s) (ACC s) (CY s) (R7 s) v (EA s) (out s).
Definition set_EA (v : bool) (s : state) : state :=
  mkState (WS2812_buffer s) (buffer_ptr s) (ACC s) (CY s) (R7 s) (DPL s) v (out s).
Definition emit (e : event) (s : state) : state :=
  mkState (WS2812_buffer s) (buffer_ptr s) (ACC s) (CY s) (R7 s) (DPL s) (EA s)
          (out s ++ [e]).

(* ---- accesses to the buffer; outside the array they are undefined ---- *)

(** [WS2812_buffer[i]] read. *)
Definition buffer_read (i : Z) (s : state) : option Z :=
  if (0 <=? i) && (i <? Z.of_nat (length (WS2812_buffer s)))
  then WS2812_buffer s !! Z.to_nat i else None.

(** [WS2812_buffer[i] = v]. *)
Definition buffer_write (i : Z) (v : Z) (s : state) : option state :=
  if (0 <=? i) && (i <? Z.of_nat (length (WS2812_buffer s)))
  then Some (set_buffer (<[Z.to_nat i := to_u8 v]> (WS2812_buffer s)) s)
  else None.

(* ---- Arduino core calls ---- *)

Definition pinMode (pin : Z) (mode : pin_mode) (s : state) : state :=
  emit (EvPinMode pin mode) s.
Definition digitalWrite (pin : Z) (level : bool) (s : state) : state :=
  emit (EvDigitalWrite pin level) s.
Definition noInterrupts (s : state) : state := emit (EvIrq false) (set_EA false s).
Definition interrupts (s : state) : state := emit (EvIrq true) (set_EA true s).
Definition delayMicroseconds (us : Z) (s : state) : state := emit (EvDelay us) s.

(* ---- the 8051 instructions of WS2812_sendByte ---- *)

(** [mov r7, #n]. *)
Definition mov_r7 (n : Z) (s : state) : state := set_R7 n s.

(** [xch a, dpl]. *)
Definition xch_a_dpl (s : state) : state := set_DPL (ACC s) (set_ACC (DPL s) s).

(** [rlc a]: rotate the accumulator left through the carry: bit 7 goes to
    the carry, the old carry comes in as bit 0. *)
Definition rlc_a (s : state) : state :=
  set_CY (Z.testbit (ACC s) 7)
         (set_ACC (Z.lor (Z.land (Z.shiftl (ACC s) 1) 255) (Z.b2z (CY s))) s).

(** [setb _WS2812_PIN_BIT]. *)
Definition setb_pin (s : state) : state := emit (EvPin true) s.

(** [mov _WS2812_PIN_BIT, c]. *)
Definition mov_pin_c (s : state) : state := emit (EvPin (CY s)) s.

(** [clr _WS2812_PIN_BIT]. *)
Definition clr_pin (s : state) : state := emit (EvPin false) s.

(** [nop]. *)
Definition nop (s : state) : state := s.

(** The register part of [djnz r7, label]: decrement, on 8 bits. *)
Definition dec_r7 (s : state) : state := set_R7 ((R7 s - 1) mod 256) s.

(** The loop [01$: ... djnz r7, 01$].  The body runs, r7 is decremented,
    and the jump is taken while r7 is not zero.  [None] when the fuel is
    used up. *)
Fixpoint sendByte_loop (fuel : nat) (s : state) : option state :=
  match fuel with
  | O => None
  | S fuel =>
      let s := rlc_a s in
      let s := setb_pin s in
      let s := mov_pin_c s in
      let s := nop s in
      let s := nop s in
      let s := nop s in
      let s := nop s in
      let s := nop s in
      let s := nop s in
      let s := clr_pin s in
      let s := nop s in
      let s := nop s in
      let s := dec_r7 s in
      if R7 s =? 0 then Some s else sendByte_loop fuel s
  end.

(** [WS2812_sendByte(data)].  SDCC passes the byte argument in [dpl].  A
    [djnz] loop over an 8-bit register ends within 256 rounds, which is the
    fuel given. *)
Definition WS2812_sendByte (data : Z) (s : state) : option state :=
  let s := set_DPL data s in
  let s := mov_r7 8 s in
  let s := xch_a_dpl s in
  sendByte_loop 256 s.

(** [for(uint8_t i = i0; i < bound; i++) body(i)]: the comparison is on
    [int], the increment wraps on 8 bits.  [None] when the fuel is used
    up or the body fails. *)
Fixpoint for_u8 (fuel : nat) (i bound : Z) (body : Z -> state -> option state)
    (s : state) : option state :=
  match fuel with
  | O => None
  | S fuel =>
      if i <? bound
      then s ← body i s; for_u8 fuel (to_u8 (i + 1)) bound body s
      else Some s
  end.

(** Fuel of the [for] loops: one more than the number of [uint8_t] values. *)
Definition loop_fuel : nat := 257.

(** [WS2812_init()]. *)
Definition WS2812_init (s : state) : option state :=
  let s := pinMode WS2812_PIN OUTPUT s in
  let s := digitalWrite WS2812_PIN LOW s in
  for_u8 loop_fuel 0 (3 * WS2812_COUNT) (fun i s => buffer_write i 0 s) s.

(** [WS2812_update()]. *)
Definition WS2812_update (s : state) : option state :=
  let s := set_buffer_ptr 0 s in
  let s := noInterrupts s in
  s ← for_u8 loop_fuel 0 (3 * WS2812_COUNT)
        (fun _ s =>
           data ← buffer_read (buffer_ptr s) s;
           WS2812_sendByte data (set_buffer_ptr (buffer_ptr s + 1) s)) s;
  let s := interrupts s in
  let s := delayMicroseconds 300 s in
  Some s.

(** [WS2812_setPixel(pixel, r, g, b)]. *)
Definition WS2812_setPixel (pixel r g b : Z) (s : state) : option state :=
  if WS2812_COUNT <=? pixel then Some s else
  let ptr := 3 * pixel in
  s ← buffer_write ptr g s;
  let ptr := ptr + 1 in
  s ← buffer_write ptr r s;
  let ptr := ptr + 1 in
  buffer_write ptr b s.

(** [WS2812_clear()]. *)
Definition WS2812_clear (s : state) : option state :=
  s ← for_u8 loop_fuel 0 (3 * WS2812_COUNT) (fun i s => buffer_write i 0 s) s;
  WS2812_update s.

(** [WS2812_show()]. *)
Definition WS2812_show (s : state) : option state := WS2812_update s.

(* ---- the waveform, described from the byte values ---- *)

(** The bits of a byte, most significant first. *)
Definition msb_bits (data : Z) : list bool :=
  map (Z.testbit data) [7; 6; 5; 4; 3; 2; 1; 0].

(** One bit symbol on the data line: the line is driven high, then takes
    the value of the bit (a 0 ends the high pulse here), then is driven low
    (a 1 ends the high pulse here). *)
Definition bit_symbol (bit : bool) : list event :=
  [EvPin true; EvPin bit; EvPin false].

(** The symbols of a list of bits, one after the other. *)
Definition bit_symbols (bits : list bool) : list event :=
  concat (map bit_symbol bits).

(** The symbols of one byte. *)
Definition byte_symbols (data : Z) : list event := bit_symbols (msb_bits data).

(** The symbols of a sequence of bytes, one byte after the other. *)
Definition bytes_symbols (bytes : list Z) : list event :=
  concat (map byte_symbols bytes).

(** The latch delay that ends a frame. *)
Definition latch : list event := [EvDelay 300].

(** Everything one transmission of the bytes [bytes] emits. *)
Definition frame_wave (bytes : list Z) : list event :=
  [EvIrq false] ++ bytes_symbols bytes ++ [EvIrq true] ++ latch.

(** [pins_masked ea tr]: starting with the interrupt enable flag [ea], no
    write to the data line in [tr] happens while interrupts are enabled. *)
Fixpoint pins_masked (ea : bool) (tr : list event) : bool :=
  match tr with
  | [] => true
  | EvIrq enabled :: tr => pins_masked enabled tr
  | EvPin _ :: tr => negb ea && pins_masked ea tr
  | _ :: tr => pins_masked ea tr
  end.

(** The pin writes among the events. *)
Definition is_pin (e : event) : bool :=
  match e with EvPin _ => true | _ => false end.

(** The buffer is the array [uint8_t WS2812_buffer[3 * WS2812_COUNT]]. *)
Definition wf (s : state) : Prop :=
  length (WS2812_buffer s) = Z.to_nat (3 * WS2812_COUNT) /\
  Forall is_u8 (WS2812_buffer s).

(** A state at power-on: static storage is zero, interrupts are enabled. *)
Definition power_on : state :=
  mkState (replicate 9 0) 0 0 false 0 0 true [].

(** A state in the middle of a run, for examples. *)
Definition lit : state :=
  mkState [1; 2; 3; 40; 50; 60; 255; 128; 7] 5 170 true 3 9 false
          [EvDelay 300].

End WS2812.

(* ===================================================================== *)
(* Machine arithmetic                                                    *)
(* ===================================================================== *)

Lemma to_u8_small (x : Z) : is_u8 x -> to_u8 x = x.
Proof. intros Hx. apply Z.mod_small. exact Hx. Qed.

Lemma to_int_small (x : Z) : -32768 <= x < 32768 -> to_int x = x.
Proof. intros Hx. unfold to_int. rewrite Z.mod_small; lia. Qed.

(** On a channel value whose product with the brightness fits [int], the
    C expression [(c * brightness) / 255], converted back to [uint8_t], is
    the floor of the exact quotient. *)
Lemma scale_channel (c brightness : Z) :
  0 <= c <= 100 -> 0 <= brightness <= 255 ->
  to_u8 (int_div (int_mul c brightness) 255) = c * brightness / 255.
Proof.
  intros Hc Hb.
  assert (Hp : 0 <= c * brightness <= 25500) by nia.
  unfold int_mul, int_div.
  rewrite (to_int_small (c * brightness)) by lia.
  rewrite Z.quot_div_nonneg by lia.
  assert (Hq : 0 <= c * brightness / 255 <= 100).
  { split; [apply Z.div_pos; lia|].
    apply Z.div_le_upper_bound; lia. }
  rewrite to_int_small by lia.
  apply to_u8_small. unfold is_u8. lia.
Qed.

(* ===================================================================== *)
(* led_colors.h: palette and brightness                                  *)
(* ===================================================================== *)

Section Palette.
Import LedColors.

Lemma load_store_eq (p v : Z) (m : mem) : load (store p v m) p = to_u8 v.
Proof. unfold load, store. now rewrite Z.eqb_refl. Qed.

Lemma load_store_ne (p q v : Z) (m : mem) :
  q <> p -> load (store p v m) q = load m q.
Proof.
  intros Hne. unfold load, store.
  destruct (Z.eqb_spec q p); [contradiction|reflexivity].
Qed.

(** Every palette channel is a byte of at most 100. *)
Lemma palette_bounded (i : nat) (c : RGB_Color) :
  COLOR_PALETTE !! i = Some c ->
  0 <= r c <= 100 /\ 0 <= g c <= 100 /\ 0 <= b c <= 100.
Proof.
  intros Hc.
  do 8 (destruct i as [|i]; [inversion Hc; subst; simpl; lia|]).
  inversion Hc.
Qed.

Lemma palette_defined (color_index : Z) :
  0 <= color_index <= 7 ->
  exists c, COLOR_PALETTE !! Z.to_nat color_index = Some c.
Proof.
  intros Hi. apply lookup_lt_is_Some. simpl. lia.
Qed.

(** C1.  For every colour index in [0,7] and every brightness in [0,255],
    [getColor] returns, and each of its three output channels (three
    distinct output locations) holds floor(paletteChannel * brightness /
    255), where the palette channel is that of the indexed entry; no other
    location is written. *)
Theorem getColor_scales_each_channel
    (color_index brightness p_r p_g p_b : Z) (m : mem) :
  0 <= color_index <= 7 ->
  0 <= brightness <= 255 ->
  p_r <> p_g -> p_r <> p_b -> p_g <> p_b ->
  exists c m',
    COLOR_PALETTE !! Z.to_nat color_index = Some c /\
    getColor color_index brightness p_r p_g p_b m = Some m' /\
    load m' p_r = r c * brightness / 255 /\
    load m' p_g = g c * brightness / 255 /\
    load m' p_b = b c * brightness / 255 /\
    (forall q, q <> p_r -> q <> p_g -> q <> p_b -> load m' q = load m q).
Proof.
  intros Hi Hb Hrg Hrb Hgb.
  destruct (palette_defined color_index Hi) as [c Hc].
  destruct (palette_bounded _ _ Hc) as (Hr & Hg & Hbl).
  exists c. eexists. split; [exact Hc|].
  unfold getColor.
  replace (7 <? color_index) with false by (symmetry; apply Z.ltb_ge; lia).
  rewrite Hc. simpl. split; [reflexivity|].
  unfold applyBrightness.
  repeat first
    [ rewrite load_store_eq
    | rewrite load_store_ne by congruence ].
  rewrite !(to_u8_small (r c)), !(to_u8_small (g c)), !(to_u8_small (b c))
    by (unfold is_u8; lia).
  rewrite !scale_channel by lia.
  repeat split; try reflexivity.
  intros q Hqr Hqg Hqb.
  repeat rewrite load_store_ne by assumption. reflexivity.
Qed.

(** The palette's red entry (100,0,0) at brightness 128 gives (50,0,0). *)
Lemma getColor_scales_each_channel_witness :
  exists c m',
    COLOR_PALETTE !! Z.to_nat 1 = Some c /\
    getColor 1 128 0 1 2 (fun _ => 0) = Some m' /\
    load m' 0 = r c * 128 / 255 /\
    load m' 1 = g c * 128 / 255 /\
    load m' 2 = b c * 128 / 255 /\
    (forall q, q <> 0 -> q <> 1 -> q <> 2 -> load m' q = load (fun _ => 0) q).
Proof.
  apply (getColor_scales_each_channel 1 128 0 1 2 (fun _ => 0)); lia.
Defined.

Example getColor_red_half :
  (m' ← getColor 1 128 0 1 2 (fun _ => 0); Some (load m' 0, load m' 1, load m' 2))
  = Some (50, 0, 0).
Proof. reflexivity. Qed.

Example getColor_red_brightness_1 :
  (m' ← getColor 1 1 0 1 2 (fun _ => 7); Some (load m' 0, load m' 1, load m' 2))
  = Some (0, 0, 0).
Proof. reflexivity. Qed.

(** With two output pointers equal the channels are scaled twice; the
    three output locations of C1 have to be distinct. *)
Example getColor_aliased_outputs :
  (m' ← getColor 7 128 0 0 2 (fun _ => 0); Some (load m' 0, load m' 2))
  = Some (25, 50).
Proof. reflexivity. Qed.

(** C5.  For every colour index above 7 (as a [uint8_t], every index
    outside [0,7]) and every brightness, [getColor] returns exactly what it
    returns for index 0, and the three outputs are 0. *)
Theorem getColor_out_of_range_is_off
    (color_index brightness p_r p_g p_b : Z) (m : mem) :
  7 < color_index ->
  exists m',
    getColor color_index brightness p_r p_g p_b m = Some m' /\
    getColor 0 brightness p_r p_g p_b m = Some m' /\
    load m' p_r = 0 /\ load m' p_g = 0 /\ load m' p_b = 0.
Proof.
  intros Hi.
  assert (Hsame : getColor color_index brightness p_r p_g p_b m
                  = getColor 0 brightness p_r p_g p_b m).
  { unfold getColor.
    replace (7 <? color_index) with true by (symmetry; apply Z.ltb_lt; lia).
    reflexivity. }
  rewrite Hsame. eexists. split; [reflexivity|]. split; [reflexivity|].
  assert (Hz : to_u8 (int_div (int_mul 0 brightness) 255) = 0) by reflexivity.
  unfold applyBrightness. simpl r; simpl g; simpl b.
  assert (Hstep : forall p q v m0,
             load m0 q = 0 -> to_u8 v = 0 -> load (store p v m0) q = 0).
  { intros p q v m0 Hq Hv. unfold load, store in *.
    destruct (q =? p); assumption. }
  assert (Hhit : forall p v m0, to_u8 v = 0 -> load (store p v m0) p = 0).
  { intros p v m0 Hv. rewrite load_store_eq. exact Hv. }
  assert (H0 : to_u8 0 = 0) by reflexivity.
  set (m1 := store p_r 0 m).
  set (m2 := store p_g 0 m1).
  set (m3 := store p_b 0 m2).
  assert (Hr3 : load m3 p_r = 0) by (subst m3 m2 m1; auto).
  assert (Hg3 : load m3 p_g = 0) by (subst m3 m2 m1; auto).
  assert (Hb3 : load m3 p_b = 0) by (subst m3 m2 m1; auto).
  rewrite Hr3.
  set (m4 := store p_r _ m3).
  assert (Hg4 : load m4 p_g = 0) by (subst m4; auto).
  assert (Hb4 : load m4 p_b = 0) by (subst m4; auto).
  assert (Hr4 : load m4 p_r = 0) by (subst m4; auto).
  rewrite Hg4.
  set (m5 := store p_g _ m4).
  assert (Hb5 : load m5 p_b = 0) by (subst m5; auto).
  assert (Hr5 : load m5 p_r = 0) by (subst m5; auto).
  assert (Hg5 : load m5 p_g = 0) by (subst m5; auto).
  rewrite Hb5.
  repeat split; auto.
Qed.

Lemma getColor_out_of_range_is_off_witness :
  exists m',
    getColor 9 200 0 1 2 (fun _ => 77) = Some m' /\
    getColor 0 200 0 1 2 (fun _ => 77) = Some m' /\
    load m' 0 = 0 /\ load m' 1 = 0 /\ load m' 2 = 0.
Proof.
  apply (getColor_out_of_range_is_off 9 200 0 1 2 (fun _ => 77)); lia.
Defined.

End Palette.

(* ===================================================================== *)
(* ws2812.c: the byte primitive                                          *)
(* ===================================================================== *)

Section SendByte.
Import WS2812.

(** Bits 1..7 of the accumulator after [rlc a] are bits 0..6 before it. *)
Lemma rlc_shifts_bits (a : Z) (c : bool) (n : Z) :
  1 <= n <= 7 ->
  Z.testbit (Z.lor (Z.land (Z.shiftl a 1) 255) (Z.b2z c)) n
  = Z.testbit a (n - 1).
Proof.
  intros Hn.
  rewrite Z.lor_spec, Z.land_spec, Z.shiftl_spec by lia.
  change 255 with (Z.ones 8).
  rewrite Z.ones_spec_low by lia.
  replace (Z.testbit (Z.b2z c) n) with false.
  - now rewrite andb_true_r, orb_false_r.
  - symmetry. destruct c; simpl Z.b2z.
    + change 1 with (Z.ones 1). apply Z.ones_spec_high. lia.
    + apply Z.bits_0.
Qed.

(** One round of the loop, as the composition of its instructions. *)
Lemma sendByte_loop_round (fuel : nat) (s : state) :
  sendByte_loop (S fuel) s =
  let s1 := dec_r7 (clr_pin (mov_pin_c (setb_pin (rlc_a s)))) in
  if R7 s1 =? 0 then Some s1 else sendByte_loop fuel s1.
Proof. reflexivity. Qed.

(** The loop entered with [k] in r7, 1 <= k <= 8, runs [k] rounds and
    emits the symbols of the top [k] bits of the accumulator, bit 7 first;
    it leaves the buffer, the buffer pointer, the interrupt flag and dpl
    alone. *)
Lemma sendByte_loop_spec (k : nat) :
  forall (fuel : nat) (s : state),
  (1 <= k <= 8)%nat -> (k <= fuel)%nat -> R7 s = Z.of_nat k ->
  exists s',
    sendByte_loop fuel s = Some s' /\
    out s' = out s ++
      bit_symbols (map (fun j => Z.testbit (ACC s) (7 - Z.of_nat j)) (seq 0 k)) /\
    WS2812_buffer s' = WS2812_buffer s /\
    buffer_ptr s' = buffer_ptr s /\
    EA s' = EA s /\
    DPL s' = DPL s /\
    R7 s' = 0.
Proof.
  induction k as [|k IH]; intros fuel s Hk Hfuel Hr7; [lia|].
  destruct fuel as [|fuel]; [lia|].
  rewrite sendByte_loop_round.
  set (s1 := dec_r7 (clr_pin (mov_pin_c (setb_pin (rlc_a s))))).
  assert (Hout1 : out s1 = out s ++ bit_symbol (Z.testbit (ACC s) 7)).
  { subst s1. simpl. now rewrite <- !app_assoc. }
  assert (Hacc1 : ACC s1 = Z.lor (Z.land (Z.shiftl (ACC s) 1) 255) (Z.b2z (CY s)))
    by reflexivity.
  assert (Hr1 : R7 s1 = Z.of_nat k).
  { subst s1. simpl R7. rewrite Hr7.
    replace (Z.of_nat (S k) - 1) with (Z.of_nat k) by lia.
    apply Z.mod_small. lia. }
  cbv zeta.
  destruct (Z.eqb_spec (R7 s1) 0) as [Hz|Hnz].
  - assert (k = 0%nat) by lia. subst k.
    exists s1. split; [reflexivity|].
    split; [|now repeat split].
    rewrite Hout1. reflexivity.
  - destruct (IH fuel s1) as (s' & Hrun & Hout & Hbuf & Hptr & Hea & Hdpl & Hr7');
      [lia|lia|exact Hr1|].
    exists s'. split; [exact Hrun|].
    split; [|now rewrite Hbuf, Hptr, Hea, Hdpl].
    rewrite Hout, Hout1, <- app_assoc. f_equal.
    change (seq 0 (S k)) with (0%nat :: seq 1 k).
    rewrite <- seq_shift, map_cons, map_map.
    unfold bit_symbols. rewrite map_cons, concat_cons. f_equal.
    do 2 f_equal. apply map_ext_in. intros j Hj. apply in_seq in Hj.
    rewrite Hacc1, rlc_shifts_bits by lia.
    f_equal. lia.
Qed.

(** [WS2812_sendByte] returns, appends the eight symbols of its argument,
    most significant bit first, and leaves the buffer, the buffer pointer
    and the interrupt flag alone. *)
Lemma sendByte_spec (data : Z) (s : state) :
  exists s',
    WS2812_sendByte data s = Some s' /\
    out s' = out s ++ byte_symbols data /\
    WS2812_buffer s' = WS2812_buffer s /\
    buffer_ptr s' = buffer_ptr s /\
    EA s' = EA s.
Proof.
  unfold WS2812_sendByte.
  set (s0 := xch_a_dpl (mov_r7 8 (set_DPL data s))).
  destruct (sendByte_loop_spec 8 256 s0) as (s' & Hrun & Hout & Hbuf & Hptr & Hea & _);
    [lia|lia|reflexivity|].
  exists s'. repeat split; try assumption.
Qed.

(** C6.  For every byte value, [WS2812_sendByte] returns and emits exactly
    eight bit symbols, one per bit of the byte, bit 7 first down to bit 0,
    with nothing between two symbols (each symbol starts at the pin write
    after the one that ended the symbol before); nothing else of the state
    the caller sees changes. *)
Theorem sendByte_eight_symbols_msb_first (data : Z) (s : state) :
  is_u8 data ->
  exists s',
    WS2812_sendByte data s = Some s' /\
    out s' = out s ++
      bit_symbol (Z.testbit data 7) ++ bit_symbol (Z.testbit data 6) ++
      bit_symbol (Z.testbit data 5) ++ bit_symbol (Z.testbit data 4) ++
      bit_symbol (Z.testbit data 3) ++ bit_symbol (Z.testbit data 2) ++
      bit_symbol (Z.testbit data 1) ++ bit_symbol (Z.testbit data 0) /\
    WS2812_buffer s' = WS2812_buffer s /\
    buffer_ptr s' = buffer_ptr s /\
    EA s' = EA s.
Proof.
  intros _.
  destruct (sendByte_spec data s) as (s' & Hrun & Hout & Hrest).
  exists s'. split; [exact Hrun|]. split; [|exact Hrest].
  rewrite Hout. reflexivity.
Qed.

(** The byte 0xA5 = 10100101 from a state in the middle of a run. *)
Lemma sendByte_eight_symbols_msb_first_witness :
  is_u8 165 /\
  exists s',
    WS2812_sendByte 165 lit = Some s' /\
    out s' = out lit ++
      bit_symbol (Z.testbit 165 7) ++ bit_symbol (Z.testbit 165 6) ++
      bit_symbol (Z.testbit 165 5) ++ bit_symbol (Z.testbit 165 4) ++
      bit_symbol (Z.testbit 165 3) ++ bit_symbol (Z.testbit 165 2) ++
      bit_symbol (Z.testbit 165 1) ++ bit_symbol (Z.testbit 165 0) /\
    WS2812_buffer s' = WS2812_buffer lit /\
    buffer_ptr s' = buffer_ptr lit /\
    EA s' = EA lit.
Proof.
  assert (H : is_u8 165) by (unfold is_u8; lia).
  split; [exact H|].
  apply (sendByte_eight_symbols_msb_first 165 lit H).
Defined.

Example sendByte_0xA5 :
  out <$> WS2812_sendByte 165 power_on =
  Some [ EvPin true; EvPin true;  EvPin false
       ; EvPin true; EvPin false; EvPin false
       ; EvPin true; EvPin true;  EvPin false
       ; EvPin true; EvPin false; EvPin false
       ; EvPin true; EvPin false; EvPin false
       ; EvPin true; EvPin true;  EvPin false
       ; EvPin true; EvPin false; EvPin false
       ; EvPin true; EvPin true;  EvPin false ].
Proof. reflexivity. Qed.

End SendByte.

(* ===================================================================== *)
(* ws2812.c: the frame buffer and the transmission                       *)
(* ===================================================================== *)

Section Driver.
Import WS2812.

Lemma buffer_write_in_range (i v : Z) (s : state) :
  0 <= i < Z.of_nat (length (WS2812_buffer s)) ->
  buffer_write i v s
  = Some (set_buffer (<[Z.to_nat i := to_u8 v]> (WS2812_buffer s)) s).
Proof.
  intros Hi. unfold buffer_write.
  replace (0 <=? i) with true by (symmetry; apply Z.leb_le; lia).
  replace (i <? Z.of_nat (length (WS2812_buffer s))) with true
    by (symmetry; apply Z.ltb_lt; lia).
  reflexivity.
Qed.

Lemma buffer_read_in_range (i : Z) (s : state) :
  0 <= i < Z.of_nat (length (WS2812_buffer s)) ->
  buffer_read i s = WS2812_buffer s !! Z.to_nat i /\
  is_Some (WS2812_buffer s !! Z.to_nat i).
Proof.
  intros Hi. unfold buffer_read.
  replace (0 <=? i) with true by (symmetry; apply Z.leb_le; lia).
  replace (i <? Z.of_nat (length (WS2812_buffer s))) with true
    by (symmetry; apply Z.ltb_lt; lia).
  split; [reflexivity|]. apply lookup_lt_is_Some. lia.
Qed.

(** The zero-fill loop of [WS2812_init] and [WS2812_clear], entered at
    index [i] with [n] bytes to go: it returns, the bytes from [i] on are
    0, the ones before are kept, and nothing else changes. *)
Lemma zero_fill_spec (n : nat) :
  forall (fuel : nat) (i : Z) (s : state),
  (n < fuel)%nat -> 0 <= i -> i + Z.of_nat n = 3 * WS2812_COUNT ->
  length (WS2812_buffer s) = Z.to_nat (3 * WS2812_COUNT) ->
  exists s',
    for_u8 fuel i (3 * WS2812_COUNT) (fun i s => buffer_write i 0 s) s = Some s' /\
    WS2812_buffer s' = take (Z.to_nat i) (WS2812_buffer s) ++ replicate n 0 /\
    buffer_ptr s' = buffer_ptr s /\ EA s' = EA s /\ out s' = out s /\
    ACC s' = ACC s /\ CY s' = CY s /\ R7 s' = R7 s /\ DPL s' = DPL s.
Proof.
  unfold WS2812_COUNT.
  induction n as [|n IH]; intros fuel i s Hfuel Hi Hsum Hlen;
    (destruct fuel as [|fuel]; [lia|]); simpl for_u8.
  - replace (i <? 3 * 3) with false by (symmetry; apply Z.ltb_ge; lia).
    exists s. split; [reflexivity|]. split; [|now repeat split].
    rewrite app_nil_r, take_ge; [reflexivity|lia].
  - replace (i <? 3 * 3) with true by (symmetry; apply Z.ltb_lt; lia).
    rewrite buffer_write_in_range by lia. simpl.
    set (s1 := set_buffer _ s).
    assert (Hu8 : to_u8 (i + 1) = i + 1)
      by (apply to_u8_small; unfold is_u8; lia).
    rewrite Hu8.
    destruct (IH fuel (i + 1) s1) as (s' & Hrun & Hbuf & Hrest);
      [lia|lia|lia|subst s1; simpl; rewrite length_insert; exact Hlen|].
    exists s'. split; [exact Hrun|]. split; [|exact Hrest].
    rewrite Hbuf. subst s1. simpl WS2812_buffer.
    replace (Z.to_nat (i + 1)) with (S (Z.to_nat i)) by lia.
    assert (Hlt : (Z.to_nat i < length (WS2812_buffer s))%nat) by lia.
    destruct (lookup_lt_is_Some_2 _ _ Hlt) as [x Hx].
    rewrite (take_S_r _ _ (to_u8 0)).
    + rewrite take_insert_ge by lia.
      rewrite <- app_assoc. reflexivity.
    + apply list_lookup_insert_eq. exact Hlt.
Qed.

(** The transmit loop of [WS2812_update], entered at index [i] with the
    buffer pointer at offset [i] and [n] bytes to go: it returns, emits the
    symbols of the remaining bytes in buffer order, and leaves the buffer
    and the interrupt flag alone. *)
Lemma transmit_loop_spec (n : nat) :
  forall (fuel : nat) (i : Z) (s : state),
  (n < fuel)%nat -> 0 <= i -> i + Z.of_nat n = 3 * WS2812_COUNT ->
  buffer_ptr s = i ->
  length (WS2812_buffer s) = Z.to_nat (3 * WS2812_COUNT) ->
  exists s',
    for_u8 fuel i (3 * WS2812_COUNT)
      (fun _ s =>
         data ← buffer_read (buffer_ptr s) s;
         WS2812_sendByte data (set_buffer_ptr (buffer_ptr s + 1) s)) s = Some s' /\
    out s' = out s ++ bytes_symbols (drop (Z.to_nat i) (WS2812_buffer s)) /\
    WS2812_buffer s' = WS2812_buffer s /\
    EA s' = EA s.
Proof.
  unfold WS2812_COUNT.
  induction n as [|n IH]; intros fuel i s Hfuel Hi Hsum Hptr Hlen;
    (destruct fuel as [|fuel]; [lia|]); simpl for_u8.
  - replace (i <? 3 * 3) with false by (symmetry; apply Z.ltb_ge; lia).
    exists s. split; [reflexivity|]. split; [|now split].
    rewrite drop_ge by lia. unfold bytes_symbols. simpl. now rewrite app_nil_r.
  - replace (i <? 3 * 3) with true by (symmetry; apply Z.ltb_lt; lia).
    destruct (buffer_read_in_range (buffer_ptr s) s) as [Hread [data Hdata]];
      [lia|].
    rewrite Hread, Hdata. cbn [mbind option_bind].
    destruct (sendByte_spec data (set_buffer_ptr (buffer_ptr s + 1) s))
      as (s1 & Hsend & Hout1 & Hbuf1 & Hptr1 & Hea1).
    rewrite Hsend. cbn [mbind option_bind].
    assert (Hu8 : to_u8 (i + 1) = i + 1)
      by (apply to_u8_small; unfold is_u8; lia).
    rewrite Hu8.
    destruct (IH fuel (i + 1) s1) as (s' & Hrun & Hout & Hbuf & Hea);
      [lia|lia|lia|rewrite Hptr1; simpl; lia|rewrite Hbuf1; exact Hlen|].
    exists s'. split; [exact Hrun|].
    split; [|split; [now rewrite Hbuf, Hbuf1|now rewrite Hea, Hea1]].
    rewrite Hout, Hout1, Hbuf1. simpl out. simpl WS2812_buffer.
    rewrite <- app_assoc. f_equal.
    rewrite Hptr in Hdata.
    rewrite (drop_S _ _ _ Hdata).
    replace (Z.to_nat (i + 1)) with (S (Z.to_nat i)) by lia.
    reflexivity.
Qed.

(** [WS2812_update] on the 9-byte buffer returns; it emits the frame of the
    buffer bytes in buffer order, leaves the buffer as it was and the
    interrupts enabled; the registers and the old buffer pointer do not
    matter. *)
Lemma update_spec (s : state) :
  length (WS2812_buffer s) = Z.to_nat (3 * WS2812_COUNT) ->
  exists s',
    WS2812_update s = Some s' /\
    out s' = out s ++ frame_wave (WS2812_buffer s) /\
    WS2812_buffer s' = WS2812_buffer s /\
    EA s' = true.
Proof.
  intros Hlen. unfold WS2812_update.
  destruct (transmit_loop_spec 9 loop_fuel 0 (noInterrupts (set_buffer_ptr 0 s)))
    as (s1 & Hrun & Hout1 & Hbuf1 & Hea1);
    [unfold loop_fuel; lia|lia|reflexivity|reflexivity|exact Hlen|].
  rewrite Hrun. simpl.
  eexists. split; [reflexivity|].
  simpl. rewrite Hout1, Hbuf1. simpl.
  split; [|now split].
  unfold frame_wave, latch. rewrite <- !app_assoc. reflexivity.
Qed.

(** [WS2812_setPixel] with a pixel index below the LED count on the 9-byte
    buffer: three in-range writes, green, red, blue. *)
Lemma setPixel_in_range (pixel r g b : Z) (s : state) :
  length (WS2812_buffer s) = Z.to_nat (3 * WS2812_COUNT) ->
  0 <= pixel < WS2812_COUNT ->
  WS2812_setPixel pixel r g b s
  = Some (set_buffer
            (<[Z.to_nat (3 * pixel + 1 + 1) := to_u8 b]>
               (<[Z.to_nat (3 * pixel + 1) := to_u8 r]>
                  (<[Z.to_nat (3 * pixel) := to_u8 g]> (WS2812_buffer s)))) s).
Proof.
  unfold WS2812_COUNT. intros Hlen Hp. unfold WS2812_setPixel, WS2812_COUNT.
  replace (3 <=? pixel) with false by (symmetry; apply Z.leb_gt; lia).
  cbv zeta.
  rewrite buffer_write_in_range by lia. simpl.
  rewrite buffer_write_in_range by (simpl; rewrite length_insert; lia). simpl.
  rewrite buffer_write_in_range by (simpl; rewrite !length_insert; lia).
  reflexivity.
Qed.

(** The buffer after an in-range [WS2812_setPixel]: the bytes before the
    pixel, then green, red, blue, then the bytes after the pixel. *)
Lemma setPixel_buffer_shape (pixel r g b : Z) (buf : list Z) :
  length buf = Z.to_nat (3 * WS2812_COUNT) ->
  0 <= pixel < WS2812_COUNT ->
  <[Z.to_nat (3 * pixel + 1 + 1) := b]>
    (<[Z.to_nat (3 * pixel + 1) := r]> (<[Z.to_nat (3 * pixel) := g]> buf))
  = take (Z.to_nat (3 * pixel)) buf ++ [g; r; b]
    ++ drop (Z.to_nat (3 * pixel + 3)) buf.
Proof.
  unfold WS2812_COUNT. intros Hlen Hp.
  change (Z.to_nat (3 * 3)) with 9%nat in Hlen.
  do 9 (destruct buf as [|? buf]; [discriminate Hlen|]).
  destruct buf; [|discriminate Hlen].
  assert (Hcases : pixel = 0 \/ pixel = 1 \/ pixel = 2) by lia.
  destruct Hcases as [-> | [-> | ->]]; reflexivity.
Qed.

Lemma bytes_symbols_pins (bytes : list Z) :
  forallb is_pin (bytes_symbols bytes) = true.
Proof.
  unfold bytes_symbols.
  induction bytes as [|d bytes IH]; [reflexivity|].
  rewrite map_cons, concat_cons, forallb_app, IH.
  reflexivity.
Qed.

Lemma pins_masked_pins (tr rest : list event) :
  forallb is_pin tr = true ->
  pins_masked false (tr ++ rest) = pins_masked false rest.
Proof.
  induction tr as [|e tr IH]; intros Hpins; [reflexivity|].
  simpl in Hpins. apply andb_prop in Hpins as [He Htr].
  destruct e; try discriminate He.
  simpl. apply IH. exact Htr.
Qed.

Lemma power_on_wf : wf power_on.
Proof.
  split; [reflexivity|].
  repeat constructor; unfold is_u8; lia.
Qed.

Lemma lit_wf : wf lit.
Proof.
  split; [reflexivity|].
  repeat constructor; unfold is_u8; lia.
Qed.

(** C4.  For every pixel index at or above the LED count and every r, g,
    b, [WS2812_setPixel] returns normally and leaves the whole state, the
    frame buffer included, exactly as it was. *)
Theorem setPixel_out_of_range_unchanged (pixel r g b : Z) (s : state) :
  WS2812_COUNT <= pixel ->
  WS2812_setPixel pixel r g b s = Some s /\
  (forall s', WS2812_setPixel pixel r g b s = Some s' ->
              WS2812_buffer s' = WS2812_buffer s).
Proof.
  intros Hp.
  assert (Hrun : WS2812_setPixel pixel r g b s = Some s).
  { unfold WS2812_setPixel.
    replace (WS2812_COUNT <=? pixel) with true
      by (symmetry; apply Z.leb_le; exact Hp).
    reflexivity. }
  split; [exact Hrun|].
  intros s' Hs'. rewrite Hrun in Hs'. now inversion Hs'.
Qed.

Lemma setPixel_out_of_range_unchanged_witness :
  WS2812_setPixel 3 10 20 30 lit = Some lit /\
  (forall s', WS2812_setPixel 3 10 20 30 lit = Some s' ->
              WS2812_buffer s' = WS2812_buffer lit).
Proof.
  apply (setPixel_out_of_range_unchanged 3 10 20 30 lit).
  unfold WS2812_COUNT. lia.
Defined.

(** C10.  For every pixel index below the LED count and every r, g, b,
    [WS2812_setPixel] returns; the bytes at offsets 3*pixel, 3*pixel+1 and
    3*pixel+2 become g, r, b; the byte at every other offset, the length of
    the buffer and the rest of the state are unchanged. *)
Theorem setPixel_writes_only_its_pixel (pixel r g b : Z) (s : state) :
  wf s ->
  0 <= pixel < WS2812_COUNT ->
  is_u8 r -> is_u8 g -> is_u8 b ->
  exists s',
    WS2812_setPixel pixel r g b s = Some s' /\
    WS2812_buffer s' !! Z.to_nat (3 * pixel) = Some g /\
    WS2812_buffer s' !! Z.to_nat (3 * pixel + 1) = Some r /\
    WS2812_buffer s' !! Z.to_nat (3 * pixel + 2) = Some b /\
    (forall j : Z,
        0 <= j -> j <> 3 * pixel -> j <> 3 * pixel + 1 -> j <> 3 * pixel + 2 ->
        WS2812_buffer s' !! Z.to_nat j = WS2812_buffer s !! Z.to_nat j) /\
    length (WS2812_buffer s') = length (WS2812_buffer s) /\
    out s' = out s /\ EA s' = EA s.
Proof.
  intros [Hlen _] Hp Hr Hg Hb.
  eexists. split; [apply setPixel_in_range; assumption|].
  simpl WS2812_buffer. simpl out. simpl EA.
  rewrite (to_u8_small r), (to_u8_small g), (to_u8_small b) by assumption.
  unfold WS2812_COUNT in *. change (Z.to_nat (3 * 3)) with 9%nat in Hlen.
  replace (3 * pixel + 1 + 1) with (3 * pixel + 2) by lia.
  repeat split.
  - rewrite !list_lookup_insert_ne by lia.
    apply list_lookup_insert_eq. lia.
  - rewrite list_lookup_insert_ne by lia.
    apply list_lookup_insert_eq. rewrite length_insert. lia.
  - apply list_lookup_insert_eq. rewrite !length_insert. lia.
  - intros j Hj H0 H1 H2. now rewrite !list_lookup_insert_ne by lia.
  - now rewrite !length_insert.
Qed.

Lemma setPixel_writes_only_its_pixel_witness :
  exists s',
    WS2812_setPixel 1 10 20 30 lit = Some s' /\
    WS2812_buffer s' !! Z.to_nat (3 * 1) = Some 20 /\
    WS2812_buffer s' !! Z.to_nat (3 * 1 + 1) = Some 10 /\
    WS2812_buffer s' !! Z.to_nat (3 * 1 + 2) = Some 30 /\
    (forall j : Z,
        0 <= j -> j <> 3 * 1 -> j <> 3 * 1 + 1 -> j <> 3 * 1 + 2 ->
        WS2812_buffer s' !! Z.to_nat j = WS2812_buffer lit !! Z.to_nat j) /\
    length (WS2812_buffer s') = length (WS2812_buffer lit) /\
    out s' = out lit /\ EA s' = EA lit.
Proof.
  apply (setPixel_writes_only_its_pixel 1 10 20 30 lit lit_wf);
    unfold WS2812_COUNT, is_u8; lia.
Defined.

Example setPixel_lit_1 :
  WS2812_buffer <$> WS2812_setPixel 1 10 20 30 lit
  = Some [1; 2; 3; 20; 10; 30; 255; 128; 7].
Proof. reflexivity. Qed.

(** C2.  For every pixel written with [WS2812_setPixel pixel r g b] and
    then transmitted with [WS2812_update], the bytes sent for that pixel
    are green, then red, then blue: the frame sent is that of the bytes
    before the pixel, then g, r, b, then the bytes after the pixel. *)
Theorem setPixel_update_sends_green_red_blue (pixel r g b : Z) (s : state) :
  wf s ->
  0 <= pixel < WS2812_COUNT ->
  is_u8 r -> is_u8 g -> is_u8 b ->
  exists s1 s2,
    WS2812_setPixel pixel r g b s = Some s1 /\
    WS2812_update s1 = Some s2 /\
    out s2 = out s ++ [EvIrq false]
      ++ bytes_symbols (take (Z.to_nat (3 * pixel)) (WS2812_buffer s))
      ++ byte_symbols g ++ byte_symbols r ++ byte_symbols b
      ++ bytes_symbols (drop (Z.to_nat (3 * pixel + 3)) (WS2812_buffer s))
      ++ [EvIrq true] ++ latch.
Proof.
  intros [Hlen _] Hp Hr Hg Hb.
  eexists. 
  destruct (update_spec
              (set_buffer
                 (<[Z.to_nat (3 * pixel + 1 + 1) := to_u8 b]>
                    (<[Z.to_nat (3 * pixel + 1) := to_u8 r]>
                       (<[Z.to_nat (3 * pixel) := to_u8 g]> (WS2812_buffer s)))) s))
    as (s2 & Hrun & Hout & _).
  { simpl. now rewrite !length_insert. }
  exists s2. split; [apply setPixel_in_range; assumption|].
  split; [exact Hrun|].
  rewrite Hout. simpl out. simpl WS2812_buffer.
  rewrite (to_u8_small r), (to_u8_small g), (to_u8_small b) by assumption.
  rewrite setPixel_buffer_shape by assumption.
  unfold frame_wave, bytes_symbols.
  rewrite !map_app, !concat_app. cbn [map concat].
  rewrite app_nil_r, <- !app_assoc. reflexivity.
Qed.

(** Pixel 0 = (r=0x00, g=0xFF, b=0x00): the frame starts with the bytes
    0xFF, 0x00, 0x00. *)
Lemma setPixel_update_sends_green_red_blue_witness :
  exists s1 s2,
    WS2812_setPixel 0 0 255 0 power_on = Some s1 /\
    WS2812_update s1 = Some s2 /\
    out s2 = out power_on ++ [EvIrq false]
      ++ bytes_symbols (take (Z.to_nat (3 * 0)) (WS2812_buffer power_on))
      ++ byte_symbols 255 ++ byte_symbols 0 ++ byte_symbols 0
      ++ bytes_symbols (drop (Z.to_nat (3 * 0 + 3)) (WS2812_buffer power_on))
      ++ [EvIrq true] ++ latch.
Proof.
  apply (setPixel_update_sends_green_red_blue 0 0 255 0 power_on power_on_wf);
    unfold WS2812_COUNT, is_u8; lia.
Defined.

(** [WS2812_init] on the 9-byte buffer returns with the buffer all zero,
    having configured the pin and driven it low. *)
Lemma init_spec (s : state) :
  length (WS2812_buffer s) = Z.to_nat (3 * WS2812_COUNT) ->
  exists s',
    WS2812_init s = Some s' /\
    WS2812_buffer s' = replicate 9 0 /\
    out s' = out s ++ [EvPinMode WS2812_PIN OUTPUT; EvDigitalWrite WS2812_PIN LOW].
Proof.
  intros Hlen. unfold WS2812_init.
  destruct (zero_fill_spec 9 loop_fuel 0
              (digitalWrite WS2812_PIN LOW (pinMode WS2812_PIN OUTPUT s)))
    as (s' & Hrun & Hbuf & _ & _ & Hout & _);
    [unfold loop_fuel; lia|lia|reflexivity|exact Hlen|].
  exists s'. split; [exact Hrun|]. split; [exact Hbuf|].
  rewrite Hout. simpl. now rewrite <- app_assoc.
Qed.

(** C3 as stated fails: from the power-on state [WS2812_clear] returns
    having emitted a whole frame, so a transmit has been performed. *)
Lemma clear_does_transmit :
  exists s',
    WS2812_clear power_on = Some s' /\
    out s' = out power_on ++ frame_wave [0; 0; 0; 0; 0; 0; 0; 0; 0] /\
    out s' <> out power_on.
Proof.
  eexists. split; [vm_compute; reflexivity|].
  split; [vm_compute; reflexivity|].
  vm_compute. discriminate.
Qed.

(** C3, amended.  [WS2812_clear] returns, sets every byte of the frame
    buffer (every channel of every pixel) to 0, and then transmits the
    cleared frame itself: what it emits is exactly what [WS2812_update]
    emits on the all-zero buffer. *)
Theorem clear_zeroes_then_transmits (s : state) :
  wf s ->
  exists s',
    WS2812_clear s = Some s' /\
    WS2812_buffer s' = replicate (Z.to_nat (3 * WS2812_COUNT)) 0 /\
    out s' = out s ++ frame_wave (replicate (Z.to_nat (3 * WS2812_COUNT)) 0).
Proof.
  intros [Hlen _]. unfold WS2812_clear.
  destruct (zero_fill_spec 9 loop_fuel 0 s)
    as (s1 & Hrun1 & Hbuf1 & _ & _ & Hout1 & _);
    [unfold loop_fuel; lia|lia|reflexivity|exact Hlen|].
  rewrite Hrun1. cbn [mbind option_bind].
  simpl in Hbuf1.
  destruct (update_spec s1) as (s' & Hrun & Hout & Hbuf & _).
  { rewrite Hbuf1. reflexivity. }
  exists s'. split; [exact Hrun|].
  rewrite Hbuf, Hout, Hbuf1, Hout1. split; reflexivity.
Qed.

Lemma clear_zeroes_then_transmits_witness :
  exists s',
    WS2812_clear lit = Some s' /\
    WS2812_buffer s' = replicate (Z.to_nat (3 * WS2812_COUNT)) 0 /\
    out s' = out lit ++ frame_wave (replicate (Z.to_nat (3 * WS2812_COUNT)) 0).
Proof.
  apply (clear_zeroes_then_transmits lit lit_wf).
Defined.

(** C7.  [WS2812_init], then [WS2812_setPixel 1 100 0 0], then
    [WS2812_update]: all three return, and the update emits exactly the
    symbols of the bytes 0,0,0, 0,100,0, 0,0,0 (eight symbols per byte,
    most significant bit first), inside the interrupt-free window, followed
    by the latch delay. *)
Theorem init_setPixel_update_scenario (s : state) :
  wf s ->
  exists s1 s2 s3,
    WS2812_init s = Some s1 /\
    WS2812_setPixel 1 100 0 0 s1 = Some s2 /\
    WS2812_update s2 = Some s3 /\
    out s2 = out s1 /\
    out s3 = out s2 ++ [EvIrq false]
      ++ bytes_symbols [0; 0; 0;  0; 100; 0;  0; 0; 0]
      ++ [EvIrq true] ++ latch.
Proof.
  intros [Hlen _].
  destruct (init_spec s Hlen) as (s1 & Hinit & Hbuf1 & Hout1).
  assert (Hlen1 : length (WS2812_buffer s1) = Z.to_nat (3 * WS2812_COUNT))
    by (rewrite Hbuf1; reflexivity).
  assert (Hset := setPixel_in_range 1 100 0 0 s1 Hlen1).
  rewrite Hbuf1 in Hset.
  match type of Hset with _ -> _ = Some ?t => set (s2 := t) in * end.
  destruct (update_spec s2) as (s3 & Hupd & Hout3 & _); [reflexivity|].
  exists s1, s2, s3.
  split; [exact Hinit|].
  split; [apply Hset; unfold WS2812_COUNT; lia|].
  split; [exact Hupd|].
  split; [reflexivity|].
  rewrite Hout3. reflexivity.
Qed.

Lemma init_setPixel_update_scenario_witness :
  exists s1 s2 s3,
    WS2812_init lit = Some s1 /\
    WS2812_setPixel 1 100 0 0 s1 = Some s2 /\
    WS2812_update s2 = Some s3 /\
    out s2 = out s1 /\
    out s3 = out s2 ++ [EvIrq false]
      ++ bytes_symbols [0; 0; 0;  0; 100; 0;  0; 0; 0]
      ++ [EvIrq true] ++ latch.
Proof.
  apply (init_setPixel_update_scenario lit lit_wf).
Defined.

(** C8.  [WS2812_update] leaves the frame buffer as it is, and what it
    emits is a function of the buffer contents alone: two calls in a row
    emit the same events, and so does a call from any other state that
    holds the same buffer. *)
Theorem update_twice_same_waveform (s : state) :
  wf s ->
  exists s1 s2 w,
    WS2812_update s = Some s1 /\
    WS2812_update s1 = Some s2 /\
    out s1 = out s ++ w /\
    out s2 = out s1 ++ w /\
    WS2812_buffer s1 = WS2812_buffer s /\
    WS2812_buffer s2 = WS2812_buffer s /\
    w = frame_wave (WS2812_buffer s) /\
    (forall t, WS2812_buffer t = WS2812_buffer s ->
       exists t', WS2812_update t = Some t' /\ out t' = out t ++ w).
Proof.
  intros [Hlen _].
  destruct (update_spec s Hlen) as (s1 & Hrun1 & Hout1 & Hbuf1 & _).
  destruct (update_spec s1) as (s2 & Hrun2 & Hout2 & Hbuf2 & _);
    [now rewrite Hbuf1|].
  exists s1, s2, (frame_wave (WS2812_buffer s)).
  repeat split; try assumption.
  - now rewrite Hout2, Hbuf1.
  - now rewrite Hbuf2.
  - intros t Ht.
    destruct (update_spec t) as (t' & Hrun & Hout & _); [now rewrite Ht|].
    exists t'. split; [exact Hrun|]. now rewrite Hout, Ht.
Qed.

Lemma update_twice_same_waveform_witness :
  exists s1 s2 w,
    WS2812_update lit = Some s1 /\
    WS2812_update s1 = Some s2 /\
    out s1 = out lit ++ w /\
    out s2 = out s1 ++ w /\
    WS2812_buffer s1 = WS2812_buffer lit /\
    WS2812_buffer s2 = WS2812_buffer lit /\
    w = frame_wave (WS2812_buffer lit) /\
    (forall t, WS2812_buffer t = WS2812_buffer lit ->
       exists t', WS2812_update t = Some t' /\ out t' = out t ++ w).
Proof.
  apply (update_twice_same_waveform lit lit_wf).
Defined.

(** C9.  Every call of [WS2812_update] returns; it disables interrupts
    before the first pin write, all pin writes of the frame come before
    interrupts are enabled again, none of them happens with interrupts
    enabled (whatever the flag was at the call), and the call ends, on its
    only exit, with interrupts enabled and the latch delay. *)
Theorem update_masks_interrupts (s : state) :
  wf s ->
  exists s' bits,
    WS2812_update s = Some s' /\
    out s' = out s ++ [EvIrq false] ++ bits ++ [EvIrq true] ++ latch /\
    forallb is_pin bits = true /\
    pins_masked (EA s) ([EvIrq false] ++ bits ++ [EvIrq true] ++ latch) = true /\
    EA s' = true.
Proof.
  intros [Hlen _].
  destruct (update_spec s Hlen) as (s' & Hrun & Hout & _ & Hea).
  exists s', (bytes_symbols (WS2812_buffer s)).
  split; [exact Hrun|]. split; [exact Hout|].
  split; [apply bytes_symbols_pins|].
  split; [|exact Hea].
  cbn [app pins_masked].
  rewrite pins_masked_pins by apply bytes_symbols_pins.
  reflexivity.
Qed.

Lemma update_masks_interrupts_witness :
  exists s' bits,
    WS2812_update power_on = Some s' /\
    out s' = out power_on ++ [EvIrq false] ++ bits ++ [EvIrq true] ++ latch /\
    forallb is_pin bits = true /\
    pins_masked (EA power_on) ([EvIrq false] ++ bits ++ [EvIrq true] ++ latch) = true /\
    EA s' = true.
Proof.
  apply (update_masks_interrupts power_on power_on_wf).
Defined.

End Driver.

(* ===================================================================== *)
(* led_colors.h: further properties of the resolver                      *)
(* ===================================================================== *)

Section PaletteMore.
Import LedColors.

Lemma load_store (p q v : Z) (m : mem) :
  load (store p v m) q = if q =? p then to_u8 v else load m q.
Proof. reflexivity. Qed.

(** The scaled channel on [int], for a channel whose product with the
    brightness still fits the 16-bit [int] (128 * 255 = 32640). *)
Lemma scale_channel_fits (c brightness : Z) :
  0 <= c <= 128 -> 0 <= brightness <= 255 ->
  to_u8 (int_div (int_mul c brightness) 255) = c * brightness / 255 /\
  0 <= c * brightness / 255 <= c.
Proof.
  intros Hc Hb.
  assert (Hp : 0 <= c * brightness <= 32640) by nia.
  assert (Hq : 0 <= c * brightness / 255 <= c).
  { split; [apply Z.div_pos; lia|].
    apply Z.div_le_upper_bound; nia. }
  split; [|exact Hq].
  unfold int_mul, int_div.
  rewrite (to_int_small (c * brightness)) by lia.
  rewrite Z.quot_div_nonneg by lia.
  rewrite to_int_small by lia.
  apply to_u8_small. unfold is_u8. lia.
Qed.

(** The index [getColor] reads the palette with is always inside the
    table. *)
Lemma coerced_index_defined (color_index : Z) :
  0 <= color_index ->
  exists c,
    COLOR_PALETTE !! Z.to_nat (if 7 <? color_index then 0 else color_index)
    = Some c.
Proof.
  intros Hi. apply palette_defined.
  destruct (Z.ltb_spec 7 color_index); lia.
Qed.

(** What [getColor] leaves in three distinct output locations, read off
    the entry it looked up. *)
Lemma getColor_channels (color_index brightness p_r p_g p_b : Z) (m : mem) :
  0 <= color_index -> 0 <= brightness <= 255 ->
  p_r <> p_g -> p_r <> p_b -> p_g <> p_b ->
  exists c m',
    COLOR_PALETTE !! Z.to_nat (if 7 <? color_index then 0 else color_index)
    = Some c /\
    getColor color_index brightness p_r p_g p_b m = Some m' /\
    load m' p_r = r c * brightness / 255 /\
    load m' p_g = g c * brightness / 255 /\
    load m' p_b = b c * brightness / 255.
Proof.
  intros Hi Hb Hrg Hrb Hgb.
  destruct (coerced_index_defined color_index Hi) as [c Hc].
  destruct (palette_bounded _ _ Hc) as (Hr & Hg & Hbl).
  exists c. eexists. split; [exact Hc|].
  unfold getColor. rewrite Hc. cbn [mbind option_bind].
  split; [reflexivity|].
  unfold applyBrightness.
  repeat first
    [ rewrite load_store_eq
    | rewrite load_store_ne by congruence ].
  rewrite !(to_u8_small (r c)), !(to_u8_small (g c)), !(to_u8_small (b c))
    by (unfold is_u8; lia).
  rewrite !scale_channel by lia.
  repeat split; reflexivity.
Qed.

(** A scaled channel is 0 exactly when the product stays below 255. *)
Lemma scaled_zero_iff (c brightness : Z) :
  0 <= c -> 0 <= brightness ->
  c * brightness / 255 = 0 <-> c * brightness < 255.
Proof.
  intros Hc Hb. rewrite Z.div_small_iff by lia. nia.
Qed.

(** X1.  [getColor] never reads outside the palette and never returns a
    channel above 100: for every index from 0 up (in or out of range),
    every brightness in [0,255] and any three output pointers, equal or
    not, it returns, each output location holds a value in [0,100], and
    every other location keeps its value. *)
Theorem getColor_total_and_bounded
    (color_index brightness p_r p_g p_b : Z) (m : mem) :
  0 <= color_index ->
  0 <= brightness <= 255 ->
  exists m',
    getColor color_index brightness p_r p_g p_b m = Some m' /\
    0 <= load m' p_r <= 100 /\
    0 <= load m' p_g <= 100 /\
    0 <= load m' p_b <= 100 /\
    (forall q, q <> p_r -> q <> p_g -> q <> p_b -> load m' q = load m q).
Proof.
  intros Hi Hb.
  destruct (coerced_index_defined color_index Hi) as [c Hc].
  destruct (palette_bounded _ _ Hc) as (Hr & Hg & Hbl).
  unfold getColor. rewrite Hc. cbn [mbind option_bind].
  eexists. split; [reflexivity|].
  assert (Hput : forall p v m0 q, 0 <= v <= 100 ->
            (q = p \/ 0 <= load m0 q <= 100) ->
            0 <= load (store p v m0) q <= 100).
  { intros p v m0 q Hv Hq. rewrite load_store.
    destruct (Z.eqb_spec q p) as [->|Hne].
    - rewrite to_u8_small by (unfold is_u8; lia). exact Hv.
    - destruct Hq as [Hq|Hq]; [contradiction|exact Hq]. }
  assert (Hscale : forall p m0 q, 0 <= load m0 p <= 100 ->
            0 <= load m0 q <= 100 ->
            0 <= load (store p (int_div (int_mul (load m0 p) brightness) 255) m0) q
              <= 100).
  { intros p m0 q Hp Hq. rewrite load_store.
    destruct (Z.eqb_spec q p) as [->|Hne]; [|exact Hq].
    destruct (scale_channel_fits (load m0 p) brightness) as [-> Hle]; lia. }
  set (m1 := store p_r (r c) m).
  set (m2 := store p_g (g c) m1).
  set (m3 := store p_b (b c) m2).
  assert (H3r : 0 <= load m3 p_r <= 100) by (subst m3 m2 m1; auto 10).
  assert (H3g : 0 <= load m3 p_g <= 100) by (subst m3 m2 m1; auto 10).
  assert (H3b : 0 <= load m3 p_b <= 100) by (subst m3 m2 m1; auto 10).
  unfold applyBrightness. cbv zeta.
  set (m4 := store p_r _ m3).
  assert (H4r : 0 <= load m4 p_r <= 100) by (subst m4; auto).
  assert (H4g : 0 <= load m4 p_g <= 100) by (subst m4; auto).
  assert (H4b : 0 <= load m4 p_b <= 100) by (subst m4; auto).
  set (m5 := store p_g _ m4).
  assert (H5r : 0 <= load m5 p_r <= 100) by (subst m5; auto).
  assert (H5g : 0 <= load m5 p_g <= 100) by (subst m5; auto).
  assert (H5b : 0 <= load m5 p_b <= 100) by (subst m5; auto).
  split; [auto|]. split; [auto|]. split; [auto|].
  intros q Hqr Hqg Hqb. subst m5 m4 m3 m2 m1.
  repeat rewrite load_store_ne by assumption. reflexivity.
Qed.

(** Index 200, and red and green written to the same location. *)
Lemma getColor_total_and_bounded_witness :
  exists m',
    getColor 200 255 5 5 6 (fun _ => 99) = Some m' /\
    0 <= load m' 5 <= 100 /\
    0 <= load m' 5 <= 100 /\
    0 <= load m' 6 <= 100 /\
    (forall q, q <> 5 -> q <> 5 -> q <> 6 -> load m' q = load (fun _ => 99) q).
Proof.
  apply (getColor_total_and_bounded 200 255 5 5 6 (fun _ => 99)); lia.
Defined.

(** X2.  At brightness 255 [getColor] returns the palette entry itself: for
    every index in [0,7] the three outputs are the entry's r, g and b. *)
Theorem getColor_full_brightness_is_palette
    (color_index p_r p_g p_b : Z) (m : mem) :
  0 <= color_index <= 7 ->
  p_r <> p_g -> p_r <> p_b -> p_g <> p_b ->
  exists c m',
    COLOR_PALETTE !! Z.to_nat color_index = Some c /\
    getColor color_index 255 p_r p_g p_b m = Some m' /\
    load m' p_r = r c /\ load m' p_g = g c /\ load m' p_b = b c.
Proof.
  intros Hi Hrg Hrb Hgb.
  destruct (getColor_channels color_index 255 p_r p_g p_b m)
    as (c & m' & Hc & Hrun & Hr & Hg & Hb); try assumption; try lia.
  replace (7 <? color_index) with false in Hc by (symmetry; apply Z.ltb_ge; lia).
  exists c, m'. split; [exact Hc|]. split; [exact Hrun|].
  rewrite Hr, Hg, Hb, !Z.div_mul by lia. repeat split; reflexivity.
Qed.

Lemma getColor_full_brightness_is_palette_witness :
  exists c m',
    COLOR_PALETTE !! Z.to_nat 4 = Some c /\
    getColor 4 255 0 1 2 (fun _ => 0) = Some m' /\
    load m' 0 = r c /\ load m' 1 = g c /\ load m' 2 = b c.
Proof.
  apply (getColor_full_brightness_is_palette 4 0 1 2 (fun _ => 0)); lia.
Defined.

(** X3.  When [getColor] gives "off": for every byte index and brightness,
    the three outputs are all 0 exactly when the index is 0, or is above 7,
    or the brightness is at most 2 (the division by 255 truncates every
    palette value away). *)
Theorem getColor_off_iff
    (color_index brightness p_r p_g p_b : Z) (m : mem) :
  is_u8 color_index ->
  0 <= brightness <= 255 ->
  p_r <> p_g -> p_r <> p_b -> p_g <> p_b ->
  exists m',
    getColor color_index brightness p_r p_g p_b m = Some m' /\
    ((load m' p_r = 0 /\ load m' p_g = 0 /\ load m' p_b = 0)
     <-> (color_index = 0 \/ 7 < color_index \/ brightness <= 2)).
Proof.
  intros Hi Hb Hrg Hrb Hgb. unfold is_u8 in Hi.
  destruct (getColor_channels color_index brightness p_r p_g p_b m)
    as (c & m' & Hc & Hrun & Er & Eg & Eb); try assumption; try lia.
  exists m'. split; [exact Hrun|].
  destruct (palette_bounded _ _ Hc) as (Hr & Hg & Hbl).
  rewrite Er, Eg, Eb, !scaled_zero_iff by lia.
  destruct (Z.ltb_spec 7 color_index) as [Hbig|Hsmall].
  - inversion Hc; subst c. simpl. lia.
  - assert (Hcases : color_index = 0 \/ color_index = 1 \/ color_index = 2 \/
                     color_index = 3 \/ color_index = 4 \/ color_index = 5 \/
                     color_index = 6 \/ color_index = 7) by lia.
    repeat (destruct Hcases as [->|Hcases]);
      try subst color_index; inversion Hc; subst c; simpl; lia.
Qed.

(** White at brightness 2 is off. *)
Lemma getColor_off_iff_witness :
  exists m',
    getColor 7 2 0 1 2 (fun _ => 0) = Some m' /\
    ((load m' 0 = 0 /\ load m' 1 = 0 /\ load m' 2 = 0)
     <-> (7 = 0 \/ 7 < 7 \/ 2 <= 2)).
Proof.
  apply (getColor_off_iff 7 2 0 1 2 (fun _ => 0)); unfold is_u8; lia.
Defined.

(** X4.  [getColor] is monotone in the brightness: for one index, raising
    the brightness never lowers any of the three outputs. *)
Theorem getColor_monotone_in_brightness
    (color_index b1 b2 p_r p_g p_b : Z) (m : mem) :
  0 <= color_index ->
  0 <= b1 -> b1 <= b2 -> b2 <= 255 ->
  p_r <> p_g -> p_r <> p_b -> p_g <> p_b ->
  exists m1 m2,
    getColor color_index b1 p_r p_g p_b m = Some m1 /\
    getColor color_index b2 p_r p_g p_b m = Some m2 /\
    load m1 p_r <= load m2 p_r /\
    load m1 p_g <= load m2 p_g /\
    load m1 p_b <= load m2 p_b.
Proof.
  intros Hi H1 H12 H2 Hrg Hrb Hgb.
  destruct (getColor_channels color_index b1 p_r p_g p_b m)
    as (c & m1 & Hc & Hrun1 & Er1 & Eg1 & Eb1); try assumption; try lia.
  destruct (getColor_channels color_index b2 p_r p_g p_b m)
    as (c' & m2 & Hc' & Hrun2 & Er2 & Eg2 & Eb2); try assumption; try lia.
  rewrite Hc in Hc'. inversion Hc'; subst c'.
  destruct (palette_bounded _ _ Hc) as (Hr & Hg & Hbl).
  exists m1, m2. split; [exact Hrun1|]. split; [exact Hrun2|].
  rewrite Er1, Eg1, Eb1, Er2, Eg2, Eb2.
  repeat split; apply Z.div_le_mono; nia.
Qed.

Lemma getColor_monotone_in_brightness_witness :
  exists m1 m2,
    getColor 4 10 0 1 2 (fun _ => 0) = Some m1 /\
    getColor 4 200 0 1 2 (fun _ => 0) = Some m2 /\
    load m1 0 <= load m2 0 /\
    load m1 1 <= load m2 1 /\
    load m1 2 <= load m2 2.
Proof.
  apply (getColor_monotone_in_brightness 4 10 200 0 1 2 (fun _ => 0)); lia.
Defined.

(** X5.  [applyBrightness] on its own: for three distinct locations holding
    channel values up to 128 (the largest whose product with 255 fits the
    16-bit [int]) and a brightness in [0,255], each channel becomes
    floor(channel * brightness / 255), no channel grows, and no other
    location changes. *)
Theorem applyBrightness_scales_up_to_128
    (p_r p_g p_b brightness : Z) (m : mem) :
  p_r <> p_g -> p_r <> p_b -> p_g <> p_b ->
  0 <= load m p_r <= 128 -> 0 <= load m p_g <= 128 -> 0 <= load m p_b <= 128 ->
  0 <= brightness <= 255 ->
  let m' := applyBrightness p_r p_g p_b brightness m in
  load m' p_r = load m p_r * brightness / 255 /\
  load m' p_g = load m p_g * brightness / 255 /\
  load m' p_b = load m p_b * brightness / 255 /\
  load m' p_r <= load m p_r /\
  load m' p_g <= load m p_g /\
  load m' p_b <= load m p_b /\
  (forall q, q <> p_r -> q <> p_g -> q <> p_b -> load m' q = load m q).
Proof.
  intros Hrg Hrb Hgb Hr Hg Hbl Hb m'. subst m'.
  unfold applyBrightness.
  repeat first
    [ rewrite load_store_eq
    | rewrite load_store_ne by congruence ].
  destruct (scale_channel_fits (load m p_r) brightness Hr Hb) as [-> Hler].
  destruct (scale_channel_fits (load m p_g) brightness Hg Hb) as [-> Hleg].
  destruct (scale_channel_fits (load m p_b) brightness Hbl Hb) as [-> Hleb].
  repeat split; try reflexivity; try lia.
  intros q Hqr Hqg Hqb.
  repeat rewrite load_store_ne by assumption. reflexivity.
Qed.

Lemma applyBrightness_scales_up_to_128_witness :
  let m := fun q : Z => if q =? 0 then 128 else 7 in
  let m' := applyBrightness 0 1 2 255 m in
  load m' 0 = load m 0 * 255 / 255 /\
  load m' 1 = load m 1 * 255 / 255 /\
  load m' 2 = load m 2 * 255 / 255 /\
  load m' 0 <= load m 0 /\
  load m' 1 <= load m 1 /\
  load m' 2 <= load m 2 /\
  (forall q, q <> 0 -> q <> 1 -> q <> 2 -> load m' q = load m q).
Proof.
  intros m.
  apply (applyBrightness_scales_up_to_128 0 1 2 255 m);
    unfold load, m; simpl; lia.
Defined.

End PaletteMore.

(* ===================================================================== *)
(* ws2812.c: further properties of the driver                            *)
(* ===================================================================== *)

Section DriverMore.
Import WS2812.

Lemma to_u8_is_u8 (x : Z) : is_u8 (to_u8 x).
Proof. unfold is_u8, to_u8. apply Z.mod_pos_bound. lia. Qed.

Lemma setPixel_ge (pixel r g b : Z) (s : state) :
  WS2812_COUNT <= pixel -> WS2812_setPixel pixel r g b s = Some s.
Proof.
  intros Hp. unfold WS2812_setPixel.
  replace (WS2812_COUNT <=? pixel) with true
    by (symmetry; apply Z.leb_le; exact Hp).
  reflexivity.
Qed.

(** A pixel index from 0 up is 0, 1, 2, or at or above the LED count. *)
Lemma pixel_cases (pixel : Z) :
  0 <= pixel ->
  pixel = 0 \/ pixel = 1 \/ pixel = 2 \/ WS2812_COUNT <= pixel.
Proof. unfold WS2812_COUNT. lia. Qed.

(** [WS2812_clear] on the 9-byte buffer returns with the buffer all zero,
    having sent the all-zero frame. *)
Lemma clear_spec (s : state) :
  length (WS2812_buffer s) = Z.to_nat (3 * WS2812_COUNT) ->
  exists s',
    WS2812_clear s = Some s' /\
    WS2812_buffer s' = replicate 9 0 /\
    out s' = out s ++ frame_wave (replicate 9 0).
Proof.
  intros Hlen. unfold WS2812_clear.
  destruct (zero_fill_spec 9 loop_fuel 0 s)
    as (s1 & Hrun1 & Hbuf1 & _ & _ & Hout1 & _);
    [unfold loop_fuel; lia|lia|reflexivity|exact Hlen|].
  rewrite Hrun1. cbn [mbind option_bind].
  simpl in Hbuf1.
  destruct (update_spec s1) as (s' & Hrun & Hout & Hbuf & _);
    [now rewrite Hbuf1|].
  exists s'. split; [exact Hrun|].
  now rewrite Hbuf, Hout, Hbuf1, Hout1.
Qed.

Lemma zeros_wf (s : state) : WS2812_buffer s = replicate 9 0 -> wf s.
Proof.
  intros Hbuf. unfold wf. rewrite Hbuf. split; [reflexivity|].
  apply Forall_replicate. unfold is_u8. lia.
Qed.

(** A byte is determined by its eight symbols. *)
Lemma byte_symbols_inj (a b : Z) :
  is_u8 a -> is_u8 b -> byte_symbols a = byte_symbols b -> a = b.
Proof.
  unfold is_u8. intros Ha Hb Hsym.
  cbn [byte_symbols bit_symbols msb_bits bit_symbol map concat app] in Hsym.
  inversion Hsym as [[H7 H6 H5 H4 H3 H2 H1 H0]].
  apply Z.bits_inj'. intros n Hn.
  destruct (Z.lt_ge_cases n 8) as [Hlow|Hhigh].
  - assert (Hcases : n = 0 \/ n = 1 \/ n = 2 \/ n = 3 \/ n = 4 \/ n = 5 \/
                     n = 6 \/ n = 7) by lia.
    repeat (destruct Hcases as [->|Hcases]); try subst n; assumption.
  - rewrite <- (Z.mod_small a (2 ^ 8)), <- (Z.mod_small b (2 ^ 8)) by lia.
    rewrite !Z.mod_pow2_bits_high by lia. reflexivity.
Qed.

Lemma byte_symbols_length (a : Z) : length (byte_symbols a) = 24%nat.
Proof. reflexivity. Qed.

(** A sequence of bytes is determined by its symbols. *)
Lemma bytes_symbols_inj (l1 : list Z) :
  forall l2 : list Z,
  Forall is_u8 l1 -> Forall is_u8 l2 -> length l1 = length l2 ->
  bytes_symbols l1 = bytes_symbols l2 -> l1 = l2.
Proof.
  unfold bytes_symbols.
  induction l1 as [|a l1 IH]; intros [|b l2] H1 H2 Hlen Hsym;
    try discriminate Hlen; [reflexivity|].
  rewrite !map_cons, !concat_cons in Hsym.
  apply app_inj_1 in Hsym as [Hhd Htl];
    [|now rewrite !byte_symbols_length].
  inversion H1; inversion H2; subst.
  f_equal.
  - apply byte_symbols_inj; assumption.
  - apply IH; try assumption. simpl in Hlen. lia.
Qed.

(** X6.  The buffer stays a 9-byte array of byte values: from such a state
    [WS2812_init], [WS2812_setPixel] (any index from 0 up, any r, g, b),
    [WS2812_update], [WS2812_clear] and [WS2812_show] all return, and the
    state they return has such a buffer again. *)
Theorem operations_keep_buffer_well_formed (pixel r g b : Z) (s : state) :
  wf s ->
  0 <= pixel ->
  (exists s', WS2812_init s = Some s' /\ wf s') /\
  (exists s', WS2812_setPixel pixel r g b s = Some s' /\ wf s') /\
  (exists s', WS2812_update s = Some s' /\ wf s') /\
  (exists s', WS2812_clear s = Some s' /\ wf s') /\
  (exists s', WS2812_show s = Some s' /\ wf s').
Proof.
  intros Hwf Hp. destruct Hwf as [Hlen Hall].
  assert (Hupd : exists s', WS2812_update s = Some s' /\ wf s').
  { destruct (update_spec s Hlen) as (s' & Hrun & _ & Hbuf & _).
    exists s'. split; [exact Hrun|]. unfold wf. now rewrite Hbuf. }
  repeat split.
  - destruct (init_spec s Hlen) as (s' & Hrun & Hbuf & _).
    exists s'. split; [exact Hrun|]. now apply zeros_wf.
  - destruct (Z.le_gt_cases WS2812_COUNT pixel) as [Hge|Hlt].
    + exists s. split; [now apply setPixel_ge|]. now split.
    + eexists. split; [apply setPixel_in_range; [exact Hlen|lia]|].
      split; simpl WS2812_buffer.
      * now rewrite !length_insert.
      * repeat apply Forall_insert; try apply to_u8_is_u8. exact Hall.
  - exact Hupd.
  - destruct (clear_spec s Hlen) as (s' & Hrun & Hbuf & _).
    exists s'. split; [exact Hrun|]. now apply zeros_wf.
  - exact Hupd.
Qed.

Lemma operations_keep_buffer_well_formed_witness :
  (exists s', WS2812_init lit = Some s' /\ wf s') /\
  (exists s', WS2812_setPixel 2 300 (-1) 7 lit = Some s' /\ wf s') /\
  (exists s', WS2812_update lit = Some s' /\ wf s') /\
  (exists s', WS2812_clear lit = Some s' /\ wf s') /\
  (exists s', WS2812_show lit = Some s' /\ wf s').
Proof.
  apply (operations_keep_buffer_well_formed 2 300 (-1) 7 lit lit_wf). lia.
Defined.

(** X7.  Writing a pixel twice keeps the last write only: for every index
    from 0 up, [WS2812_setPixel] after a [WS2812_setPixel] of the same
    pixel gives the state the second call alone gives. *)
Theorem setPixel_last_write_wins
    (pixel r1 g1 b1 r2 g2 b2 : Z) (s : state) :
  wf s ->
  0 <= pixel ->
  exists s',
    (s1 ← WS2812_setPixel pixel r1 g1 b1 s; WS2812_setPixel pixel r2 g2 b2 s1)
    = Some s' /\
    WS2812_setPixel pixel r2 g2 b2 s = Some s'.
Proof.
  intros [Hlen _] Hp.
  change (Z.to_nat (3 * WS2812_COUNT)) with 9%nat in Hlen.
  destruct s as [buf ptr acc cy r7 dpl ea tr]. simpl in Hlen.
  do 9 (destruct buf as [|? buf]; [discriminate Hlen|]).
  destruct buf; [|discriminate Hlen].
  destruct (pixel_cases pixel Hp) as [->|[->|[->|Hge]]];
    try (eexists; split; reflexivity).
  rewrite (setPixel_ge pixel r1 g1 b1) by exact Hge.
  cbn [mbind option_bind].
  rewrite (setPixel_ge pixel r2 g2 b2) by exact Hge.
  eexists; split; reflexivity.
Qed.

Lemma setPixel_last_write_wins_witness :
  exists s',
    (s1 ← WS2812_setPixel 1 1 2 3 lit; WS2812_setPixel 1 4 5 6 s1) = Some s' /\
    WS2812_setPixel 1 4 5 6 lit = Some s'.
Proof.
  apply (setPixel_last_write_wins 1 1 2 3 4 5 6 lit lit_wf). lia.
Defined.

(** X8.  Writes to two different pixels do not interfere: for two distinct
    indices from 0 up, the two [WS2812_setPixel] calls give the same state
    in either order. *)
Theorem setPixel_distinct_pixels_commute
    (p q r1 g1 b1 r2 g2 b2 : Z) (s : state) :
  wf s ->
  0 <= p -> 0 <= q -> p <> q ->
  exists s',
    (s1 ← WS2812_setPixel p r1 g1 b1 s; WS2812_setPixel q r2 g2 b2 s1)
    = Some s' /\
    (s1 ← WS2812_setPixel q r2 g2 b2 s; WS2812_setPixel p r1 g1 b1 s1)
    = Some s'.
Proof.
  intros [Hlen _] Hp Hq Hpq.
  assert (Hin : forall x r g b, 0 <= x -> ~ WS2812_COUNT <= x ->
            exists t, WS2812_setPixel x r g b s = Some t)
    by (intros; eexists; apply setPixel_in_range; [exact Hlen|lia]).
  destruct (Z.le_gt_cases WS2812_COUNT p) as [Hpge|Hplt];
    destruct (Z.le_gt_cases WS2812_COUNT q) as [Hqge|Hqlt].
  - rewrite (setPixel_ge p), (setPixel_ge q) by assumption.
    cbn [mbind option_bind].
    rewrite (setPixel_ge p), (setPixel_ge q) by assumption.
    eexists; split; reflexivity.
  - rewrite (setPixel_ge p) by assumption. cbn [mbind option_bind].
    destruct (Hin q r2 g2 b2) as [t Ht]; [lia|lia|].
    rewrite Ht. cbn [mbind option_bind].
    rewrite (setPixel_ge p) by assumption.
    eexists; split; reflexivity.
  - rewrite (setPixel_ge q) by assumption. cbn [mbind option_bind].
    destruct (Hin p r1 g1 b1) as [t Ht]; [lia|lia|].
    rewrite Ht. cbn [mbind option_bind].
    rewrite (setPixel_ge q) by assumption.
    eexists; split; reflexivity.
  - clear Hin.
    change (Z.to_nat (3 * WS2812_COUNT)) with 9%nat in Hlen.
    destruct s as [buf ptr acc cy r7 dpl ea tr]. simpl in Hlen.
    do 9 (destruct buf as [|? buf]; [discriminate Hlen|]).
    destruct buf; [|discriminate Hlen].
    destruct (pixel_cases p Hp) as [->|[->|[->|Hpge]]]; [| | |lia];
      (destruct (pixel_cases q Hq) as [->|[->|[->|Hqge]]]; [| | |lia]);
      try contradiction;
      eexists; split; reflexivity.
Qed.

Lemma setPixel_distinct_pixels_commute_witness :
  exists s',
    (s1 ← WS2812_setPixel 0 1 2 3 lit; WS2812_setPixel 2 4 5 6 s1) = Some s' /\
    (s1 ← WS2812_setPixel 2 4 5 6 lit; WS2812_setPixel 0 1 2 3 s1) = Some s'.
Proof.
  apply (setPixel_distinct_pixels_commute 0 2 1 2 3 4 5 6 lit lit_wf); lia.
Defined.

(** X9.  After [WS2812_init], lighting one pixel and showing it sends a
    frame that is zero everywhere except at that pixel: for every pixel
    index below the LED count and every r, g, b, [WS2812_init], then
    [WS2812_setPixel], then [WS2812_show] return, and the show emits the
    frame of 3*pixel zero bytes, then g, r, b, then zero bytes up to the
    ninth. *)
Theorem init_setPixel_show_lights_one_pixel (pixel r g b : Z) (s : state) :
  wf s ->
  0 <= pixel < WS2812_COUNT ->
  is_u8 r -> is_u8 g -> is_u8 b ->
  exists s1 s2 s3,
    WS2812_init s = Some s1 /\
    WS2812_setPixel pixel r g b s1 = Some s2 /\
    WS2812_show s2 = Some s3 /\
    out s3 = out s2 ++
      frame_wave (replicate (Z.to_nat (3 * pixel)) 0 ++ [g; r; b]
                  ++ replicate (Z.to_nat (3 * (WS2812_COUNT - 1 - pixel))) 0).
Proof.
  intros [Hlen _] Hp Hr Hg Hb.
  destruct (init_spec s Hlen) as (s1 & Hinit & Hbuf1 & _).
  assert (Hlen1 : length (WS2812_buffer s1) = Z.to_nat (3 * WS2812_COUNT))
    by (rewrite Hbuf1; reflexivity).
  assert (Hset := setPixel_in_range pixel r g b s1 Hlen1 Hp).
  match type of Hset with _ = Some ?t => set (s2 := t) in * end.
  destruct (update_spec s2) as (s3 & Hupd & Hout3 & _).
  { subst s2. simpl. now rewrite !length_insert. }
  exists s1, s2, s3.
  split; [exact Hinit|]. split; [exact Hset|]. split; [exact Hupd|].
  rewrite Hout3. do 2 f_equal.
  subst s2. simpl WS2812_buffer.
  rewrite (to_u8_small r), (to_u8_small g), (to_u8_small b) by assumption.
  rewrite setPixel_buffer_shape by assumption.
  rewrite Hbuf1.
  assert (Hcases : pixel = 0 \/ pixel = 1 \/ pixel = 2)
    by (unfold WS2812_COUNT in Hp; lia).
  destruct Hcases as [-> | [-> | ->]]; reflexivity.
Qed.

Lemma init_setPixel_show_lights_one_pixel_witness :
  exists s1 s2 s3,
    WS2812_init lit = Some s1 /\
    WS2812_setPixel 2 10 20 30 s1 = Some s2 /\
    WS2812_show s2 = Some s3 /\
    out s3 = out s2 ++
      frame_wave (replicate (Z.to_nat (3 * 2)) 0 ++ [20; 10; 30]
                  ++ replicate (Z.to_nat (3 * (WS2812_COUNT - 1 - 2))) 0).
Proof.
  apply (init_setPixel_show_lights_one_pixel 2 10 20 30 lit lit_wf);
    unfold WS2812_COUNT, is_u8; lia.
Defined.

(** X10.  [WS2812_init] resets the frame without sending it: whatever the
    buffer held, it returns having emitted only the pin setup (pin 34 as
    output, driven low), with the interrupt flag as it was and every byte
    of the buffer 0, so that the next [WS2812_update] sends the all-zero
    frame. *)
Theorem init_resets_without_transmitting (s : state) :
  wf s ->
  exists s1 s2,
    WS2812_init s = Some s1 /\
    out s1 = out s ++ [EvPinMode 34 OUTPUT; EvDigitalWrite 34 false] /\
    EA s1 = EA s /\
    WS2812_buffer s1 = replicate (Z.to_nat (3 * WS2812_COUNT)) 0 /\
    WS2812_update s1 = Some s2 /\
    out s2 = out s1 ++ frame_wave (replicate (Z.to_nat (3 * WS2812_COUNT)) 0).
Proof.
  intros [Hlen _].
  destruct (zero_fill_spec 9 loop_fuel 0
              (digitalWrite WS2812_PIN LOW (pinMode WS2812_PIN OUTPUT s)))
    as (s1 & Hrun & Hbuf & _ & Hea & Hout & _);
    [unfold loop_fuel; lia|lia|reflexivity|exact Hlen|].
  simpl in Hbuf.
  destruct (update_spec s1) as (s2 & Hupd & Hout2 & _);
    [now rewrite Hbuf|].
  exists s1, s2.
  split; [exact Hrun|].
  split; [rewrite Hout; simpl; now rewrite <- app_assoc|].
  split; [exact Hea|].
  split; [exact Hbuf|].
  split; [exact Hupd|].
  now rewrite Hout2, Hbuf.
Qed.

Lemma init_resets_without_transmitting_witness :
  exists s1 s2,
    WS2812_init lit = Some s1 /\
    out s1 = out lit ++ [EvPinMode 34 OUTPUT; EvDigitalWrite 34 false] /\
    EA s1 = EA lit /\
    WS2812_buffer s1 = replicate (Z.to_nat (3 * WS2812_COUNT)) 0 /\
    WS2812_update s1 = Some s2 /\
    out s2 = out s1 ++ frame_wave (replicate (Z.to_nat (3 * WS2812_COUNT)) 0).
Proof.
  apply (init_resets_without_transmitting lit lit_wf).
Defined.

(** X11.  The frame sent determines the buffer: from two states with 9-byte
    buffers [WS2812_update] returns, and if the events the two calls emit
    are the same then the two buffers are the same, byte for byte. *)
Theorem update_waveform_determines_buffer (s t : state) :
  wf s -> wf t ->
  exists s' t' ws wt,
    WS2812_update s = Some s' /\ out s' = out s ++ ws /\
    WS2812_update t = Some t' /\ out t' = out t ++ wt /\
    (ws = wt -> WS2812_buffer s = WS2812_buffer t).
Proof.
  intros [Hlens Hfs] [Hlent Hft].
  destruct (update_spec s Hlens) as (s' & Hruns & Houts & _).
  destruct (update_spec t Hlent) as (t' & Hrunt & Houtt & _).
  exists s', t', (frame_wave (WS2812_buffer s)), (frame_wave (WS2812_buffer t)).
  split; [exact Hruns|]. split; [exact Houts|].
  split; [exact Hrunt|]. split; [exact Houtt|].
  unfold frame_wave. intros Hsame.
  apply app_inv_head, app_inv_tail in Hsame.
  apply bytes_symbols_inj; try assumption. congruence.
Qed.

Lemma update_waveform_determines_buffer_witness :
  exists s' t' ws wt,
    WS2812_update lit = Some s' /\ out s' = out lit ++ ws /\
    WS2812_update power_on = Some t' /\ out t' = out power_on ++ wt /\
    (ws = wt -> WS2812_buffer lit = WS2812_buffer power_on).
Proof.
  apply (update_waveform_determines_buffer lit power_on lit_wf power_on_wf).
Defined.

Lemma bit_symbols_app (l1 l2 : list bool) :
  bit_symbols (l1 ++ l2) = bit_symbols l1 ++ bit_symbols l2.
Proof. unfold bit_symbols. now rewrite map_app, concat_app. Qed.

(** The symbols of a byte sequence are the symbols of its bits, eight per
    byte. *)
Lemma bytes_symbols_bits (bytes : list Z) :
  bytes_symbols bytes = bit_symbols (concat (map msb_bits bytes)) /\
  length (concat (map msb_bits bytes)) = (8 * length bytes)%nat.
Proof.
  unfold bytes_symbols.
  induction bytes as [|d bytes [IHs IHl]]; [split; reflexivity|].
  rewrite !map_cons, !concat_cons, bit_symbols_app, length_app, IHs, IHl.
  split; [reflexivity|]. simpl length. lia.
Qed.

(** X12.  Every frame has the same size: whatever the buffer holds,
    [WS2812_update] emits, between disabling and enabling interrupts,
    exactly 24 bit symbols per LED (72 in all, three pin writes each), then
    one latch delay of 300 microseconds. *)
Theorem update_sends_24_bits_per_led (s : state) :
  wf s ->
  exists s' bits,
    WS2812_update s = Some s' /\
    out s' = out s ++ [EvIrq false] ++ bit_symbols bits
                   ++ [EvIrq true; EvDelay 300] /\
    Z.of_nat (length bits) = 24 * WS2812_COUNT /\
    length (bit_symbols bits) = (3 * length bits)%nat.
Proof.
  intros [Hlen _].
  destruct (update_spec s Hlen) as (s' & Hrun & Hout & _).
  destruct (bytes_symbols_bits (WS2812_buffer s)) as [Hsym Hbits].
  exists s', (concat (map msb_bits (WS2812_buffer s))).
  split; [exact Hrun|].
  split; [rewrite Hout; unfold frame_wave, latch; now rewrite Hsym|].
  split; [rewrite Hbits, Hlen; reflexivity|].
  generalize (concat (map msb_bits (WS2812_buffer s))) as l.
  induction l as [|x l IH]; [reflexivity|].
  change (bit_symbols (x :: l)) with (bit_symbol x ++ bit_symbols l).
  rewrite length_app, IH. simpl length. lia.
Qed.

Lemma update_sends_24_bits_per_led_witness :
  exists s' bits,
    WS2812_update lit = Some s' /\
    out s' = out lit ++ [EvIrq false] ++ bit_symbols bits
                     ++ [EvIrq true; EvDelay 300] /\
    Z.of_nat (length bits) = 24 * WS2812_COUNT /\
    length (bit_symbols bits) = (3 * length bits)%nat.
Proof.
  apply (update_sends_24_bits_per_led lit lit_wf).
Defined.

End DriverMore.
